(** * Plugin registrants of the Docker-Manager desktop shells

    The repository holds two generated registrants:

    - [linux/flutter/generated_plugin_registrant.cc], function
      [fl_register_plugins];
    - [windows/flutter/generated_plugin_registrant.cc], function
      [RegisterPlugins].

    Both are glue: everything they do is a call into the host (the Flutter
    embedder, the URL-launcher plugin library, GLib).  The embedding
    therefore runs each function against an arbitrary host and records the
    calls the function issues, in order, the way a mock registry would. *)

From Stdlib Require Import ZArith List String Bool Lia.
Import ListNotations.
Local Open Scope string_scope.
Local Open Scope Z_scope.

(** ** Pointers, calls and hosts *)

(** Registries and registrars are opaque handles: machine pointers. *)
Definition ptr := Z.
Definition NULL : ptr := 0.

(** An argument of an outgoing call: a handle or a string literal. *)
Inductive Arg : Type :=
| APtr (p : ptr)
| AStr (s : string).

(** An outgoing call: the function called and its arguments. *)
Record Call : Type := mkCall { callee : string; args : list Arg }.

(** The host answers a call from its current state with the word it returns
    (dropped by the caller of a [void] function) and its next state.  [None]
    is a call that does not return: the process aborted or crashed inside
    it, as on a receiver the host cannot dispatch on. *)
Record Host : Type := mkHost {
  hstate : Type;
  answer : Call -> hstate -> option (ptr * hstate)
}.

(** The calls of a log that go to the function [f]. *)
Definition calls_to (f : string) (log : list Call) : list Call :=
  filter (fun c => String.eqb (callee c) f) log.

(** ** Running code against a host *)

Section Runtime.

(** The host's state. *)
Variable S : Type.

(** What an execution leaves behind: the value it returned ([None] when a
    call it made did not return), the calls it issued, oldest first, and
    the state the host ended in. *)
Record Run (A : Type) : Type := mkRun {
  returned : option A;
  issued : list Call;
  final : S
}.
Arguments mkRun {A}.
Arguments returned {A}.
Arguments issued {A}.
Arguments final {A}.

Definition M (A : Type) : Type := S -> Run A.

Definition ret {A : Type} (a : A) : M A :=
  fun s => mkRun (Some a) [] s.

Definition bind {A B : Type} (m : M A) (k : A -> M B) : M B :=
  fun s =>
    let r := m s in
    match returned r with
    | None => mkRun None (issued r) (final r)
    | Some a =>
        let r' := k a (final r) in
        mkRun (returned r') (issued r ++ issued r') (final r')
    end.

End Runtime.

Arguments mkRun {S A}.
Arguments returned {S A}.
Arguments issued {S A}.
Arguments final {S A}.
Arguments ret {S A}.
Arguments bind {S A B}.

(** One outgoing call: it is on the log whether or not it returns. *)
Definition extern {H : Host} (c : Call) : M (hstate H) ptr :=
  fun s =>
    match answer H c s with
    | None => mkRun None [c] s
    | Some (v, s') => mkRun (Some v) [c] s'
    end.

(** A call to a [void] function: the word that comes back is dropped. *)
Definition extern_void {H : Host} (c : Call) : M (hstate H) unit :=
  bind (extern c) (fun _ => ret tt).

Declare Scope registrant_scope.
Delimit Scope registrant_scope with registrant.
Notation "x <- m ;; k" := (bind m (fun x => k))
  (at level 100, m at next level, right associativity) : registrant_scope.
Notation "m ;; k" := (bind m (fun _ => k))
  (at level 100, right associativity) : registrant_scope.
Local Open Scope registrant_scope.

(** ** The Linux registrant

    [linux/flutter/generated_plugin_registrant.cc] *)

Module Linux.

Section Code.

Variable H : Host.

(** [FlPluginRegistrar* fl_plugin_registry_get_registrar_for_plugin
      (FlPluginRegistry* registry, const gchar* name)], of the embedder. *)
Definition fl_plugin_registry_get_registrar_for_plugin
    (registry : ptr) (name : string) : M (hstate H) ptr :=
  extern (mkCall "fl_plugin_registry_get_registrar_for_plugin"
                 [APtr registry; AStr name]).

(** [void url_launcher_plugin_register_with_registrar
      (FlPluginRegistrar* registrar)], of
    [<url_launcher_linux/url_launcher_plugin.h>]. *)
Definition url_launcher_plugin_register_with_registrar
    (registrar : ptr) : M (hstate H) unit :=
  extern_void (mkCall "url_launcher_plugin_register_with_registrar"
                      [APtr registrar]).

(** The cleanup function GLib attaches to a [g_autoptr(FlPluginRegistrar)]
    variable; it is handed the variable, logged here by the pointer it
    holds.  What it does with that pointer is GLib's side of the call. *)
Definition glib_autoptr_cleanup_FlPluginRegistrar (held : ptr) : M (hstate H) unit :=
  extern_void (mkCall "glib_autoptr_cleanup_FlPluginRegistrar" [APtr held]).

(** Modelled from the spec: the GLib macro [g_autoptr], whose definition is
    not part of the repository.  The spec describes it as an
    automatically-released scoped reference, acquired and released within
    the registration call's scope: the variable is initialised, the rest of
    the enclosing block runs with it, and the cleanup function runs on it
    when the block is left.  A call that does not return is, here, a call
    the process does not come back from, and then no block is left: leaving
    the block by a C++ exception raised inside a call, which would run the
    cleanup on the way out, is not among the outcomes of a call to the
    host. *)
Definition g_autoptr {A : Type} (init : M (hstate H) ptr)
    (scope : ptr -> M (hstate H) A)
    : M (hstate H) A :=
  var <- init ;;
  a <- scope var ;;
  glib_autoptr_cleanup_FlPluginRegistrar var ;;
  ret a.

(** [void fl_register_plugins(FlPluginRegistry* registry)] *)
Definition fl_register_plugins (registry : ptr) : M (hstate H) unit :=
  g_autoptr
    (fl_plugin_registry_get_registrar_for_plugin registry "UrlLauncherPlugin")
    (fun url_launcher_linux_registrar =>
       url_launcher_plugin_register_with_registrar
         url_launcher_linux_registrar).

End Code.

Arguments fl_plugin_registry_get_registrar_for_plugin {H}.
Arguments url_launcher_plugin_register_with_registrar {H}.
Arguments glib_autoptr_cleanup_FlPluginRegistrar {H}.
Arguments g_autoptr {H A}.
Arguments fl_register_plugins {H}.

(** The three calls, as they appear on a log. *)
Definition lookup_call (registry : ptr) : Call :=
  mkCall "fl_plugin_registry_get_registrar_for_plugin"
         [APtr registry; AStr "UrlLauncherPlugin"].
Definition register_call (registrar : ptr) : Call :=
  mkCall "url_launcher_plugin_register_with_registrar" [APtr registrar].
Definition release_call (registrar : ptr) : Call :=
  mkCall "glib_autoptr_cleanup_FlPluginRegistrar" [APtr registrar].

End Linux.

(** ** The Windows registrant

    [windows/flutter/generated_plugin_registrant.cc] *)

Module Windows.

Section Code.

Variable H : Host.

(** [GetRegistrarForPlugin(name)], a member of [flutter::PluginRegistry],
    as entered on a receiver that points to a registry; the receiver travels
    as first argument.  The dereference that the call through [registry->]
    makes first is [Cxx.arrow], below. *)
Definition GetRegistrarForPlugin (registry : ptr) (name : string) : M (hstate H) ptr :=
  extern (mkCall "flutter::PluginRegistry::GetRegistrarForPlugin"
                 [APtr registry; AStr name]).

(** [void UrlLauncherWindowsRegisterWithRegistrar
      (FlutterDesktopPluginRegistrarRef registrar)], of
    [<url_launcher_windows/url_launcher_windows.h>]. *)
Definition UrlLauncherWindowsRegisterWithRegistrar
    (registrar : ptr) : M (hstate H) unit :=
  extern_void (mkCall "UrlLauncherWindowsRegisterWithRegistrar"
                      [APtr registrar]).

(** [void RegisterPlugins(flutter::PluginRegistry* registry)], on a
    [registry] that points to a registry: the argument expression is
    evaluated, then the call is made.  [Cxx.RegisterPlugins], below, is the
    function on any pointer. *)
Definition RegisterPlugins (registry : ptr) : M (hstate H) unit :=
  registrar <- GetRegistrarForPlugin registry "UrlLauncherWindows" ;;
  UrlLauncherWindowsRegisterWithRegistrar registrar.

End Code.

Arguments GetRegistrarForPlugin {H}.
Arguments UrlLauncherWindowsRegisterWithRegistrar {H}.
Arguments RegisterPlugins {H}.

Definition lookup_call (registry : ptr) : Call :=
  mkCall "flutter::PluginRegistry::GetRegistrarForPlugin"
         [APtr registry; AStr "UrlLauncherWindows"].
Definition register_call (registrar : ptr) : Call :=
  mkCall "UrlLauncherWindowsRegisterWithRegistrar" [APtr registrar].

End Windows.

(** ** The member call of the Windows registrant

    Line 22 calls [GetRegistrarForPlugin] through the pointer [registry]:
    before the function is entered, the object [registry] points to is read
    to find it.  A null [registry] points to no object; the process faults
    at that read, before any function is entered: no call goes out and
    nothing comes back. *)

(** The process faults on the spot. *)
Definition fault {S A : Type} : M S A := fun s => mkRun None [] s.

Module Cxx.

Section Code.

Variable H : Host.

(** [receiver->member(...)] *)
Definition arrow {A : Type} (receiver : ptr) (member : M (hstate H) A)
    : M (hstate H) A :=
  if Z.eqb receiver NULL then fault else member.

(** [void RegisterPlugins(flutter::PluginRegistry* registry)], the
    dereference of [registry] included. *)
Definition RegisterPlugins (registry : ptr) : M (hstate H) unit :=
  registrar <-
    arrow registry
          (Windows.GetRegistrarForPlugin registry "UrlLauncherWindows") ;;
  Windows.UrlLauncherWindowsRegisterWithRegistrar registrar.

End Code.

Arguments arrow {H A}.
Arguments RegisterPlugins {H}.

End Cxx.

(** ** A mock host

    The registry of the spec's scenarios: it answers the lookup of one
    plugin name with a fixed registrar, every other lookup with [NULL], and
    counts the calls it served. *)
Definition mock_answer (lookup name : string) (registrar : ptr)
    (c : Call) (served : nat) : option (ptr * nat) :=
  match args c with
  | [APtr _; AStr n] =>
      if String.eqb (callee c) lookup && String.eqb n name
      then Some (registrar, S served)
      else Some (NULL, S served)
  | _ => Some (NULL, S served)
  end.

Definition mock (lookup name : string) (registrar : ptr) : Host :=
  mkHost nat (mock_answer lookup name registrar).

Definition linux_mock (registrar : ptr) : Host :=
  mock "fl_plugin_registry_get_registrar_for_plugin" "UrlLauncherPlugin"
       registrar.

Definition windows_mock (registrar : ptr) : Host :=
  mock "flutter::PluginRegistry::GetRegistrarForPlugin" "UrlLauncherWindows"
       registrar.

(** A host that is down: no call returns. *)
Definition dead_host : Host := mkHost unit (fun _ _ => None).

(** Every call to the host returns. *)
Definition responsive (H : Host) : Prop :=
  forall c s, exists v s', answer H c s = Some (v, s').

(** ** The two registrants as one operation

    The spec gives both registrants one responsibility: look the plugin's
    registrar up by name, then hand it to the plugin's registration entry
    point.  What a platform contributes is its spelling of those two calls. *)
Record PluginAPI (S : Type) : Type := mkAPI {
  get_registrar : ptr -> string -> M S ptr;
  register_with_registrar : ptr -> M S unit
}.
Arguments mkAPI {S}.
Arguments get_registrar {S}.
Arguments register_with_registrar {S}.

Definition linux_api (H : Host) : PluginAPI (hstate H) :=
  mkAPI Linux.fl_plugin_registry_get_registrar_for_plugin
        Linux.url_launcher_plugin_register_with_registrar.

Definition windows_api (H : Host) : PluginAPI (hstate H) :=
  mkAPI Windows.GetRegistrarForPlugin
        Windows.UrlLauncherWindowsRegisterWithRegistrar.

(** How the registrar is held: by a scoped reference that is released, by
    the given release function, when the call is left, or as a transient
    value used inline. *)
Inductive Idiom (S : Type) : Type :=
| Scoped (release : ptr -> M S unit)
| Transient.
Arguments Scoped {S}.
Arguments Transient {S}.

(** The registrant in the spec's words, with its two parameters: the plugin
    identifier and the acquisition idiom. *)
Definition spec_registrant {S : Type} (api : PluginAPI S)
    (name : string) (idiom : Idiom S) (registry : ptr) : M S unit :=
  registrar <- get_registrar api registry name ;;
  register_with_registrar api registrar ;;
  match idiom with
  | Scoped release => release registrar
  | Transient => ret tt
  end.

(** The two idioms of the repository: GLib's scoped reference, and none. *)
Definition idiom_of (H : Host) (scoped : bool) : Idiom (hstate H) :=
  if scoped
  then Scoped (Linux.glib_autoptr_cleanup_FlPluginRegistrar (H := H))
  else Transient.

(** The Windows spelling of the two calls of the Linux API; every other
    function keeps its name. *)
Definition spell (f : string) : string :=
  if String.eqb f "fl_plugin_registry_get_registrar_for_plugin"
  then "flutter::PluginRegistry::GetRegistrarForPlugin"
  else if String.eqb f "url_launcher_plugin_register_with_registrar"
  then "UrlLauncherWindowsRegisterWithRegistrar"
  else f.

Definition respell (c : Call) : Call := mkCall (spell (callee c)) (args c).

(** A host seen through the Linux spelling of its API. *)
Definition respelled (H : Host) : Host :=
  mkHost (hstate H) (fun c s => answer H (respell c) s).

(** ** Shapes

    The shape of a call forgets the handles it carries and keeps the
    function called and the string literals. *)
Definition arg_shape (a : Arg) : option string :=
  match a with
  | APtr _ => None
  | AStr s => Some s
  end.

Definition shape (c : Call) : string * list (option string) :=
  (callee c, map arg_shape (args c)).

(** The calls of a log that go anywhere but to the functions [own]. *)
Definition downstream (own : list string) (log : list Call) : list Call :=
  filter (fun c => negb (existsb (String.eqb (callee c)) own)) log.

(** ** Views of a run

    A run of a registrant is one of a few: which calls went out, and how far
    the host let the registrant get. *)
Inductive LinuxRun (H : Host) (registry : ptr) (s : hstate H)
  : Run (hstate H) unit -> Prop :=
| LR_lookup_fails :
    answer H (Linux.lookup_call registry) s = None ->
    LinuxRun H registry s (mkRun None [Linux.lookup_call registry] s)
| LR_register_fails h s1 :
    answer H (Linux.lookup_call registry) s = Some (h, s1) ->
    answer H (Linux.register_call h) s1 = None ->
    LinuxRun H registry s
      (mkRun None [Linux.lookup_call registry; Linux.register_call h] s1)
| LR_release_fails h s1 v s2 :
    answer H (Linux.lookup_call registry) s = Some (h, s1) ->
    answer H (Linux.register_call h) s1 = Some (v, s2) ->
    answer H (Linux.release_call h) s2 = None ->
    LinuxRun H registry s
      (mkRun None [Linux.lookup_call registry; Linux.register_call h;
                   Linux.release_call h] s2)
| LR_returns h s1 v s2 v' s3 :
    answer H (Linux.lookup_call registry) s = Some (h, s1) ->
    answer H (Linux.register_call h) s1 = Some (v, s2) ->
    answer H (Linux.release_call h) s2 = Some (v', s3) ->
    LinuxRun H registry s
      (mkRun (Some tt) [Linux.lookup_call registry; Linux.register_call h;
                        Linux.release_call h] s3).

Inductive WindowsRun (H : Host) (registry : ptr) (s : hstate H)
  : Run (hstate H) unit -> Prop :=
| WR_lookup_fails :
    answer H (Windows.lookup_call registry) s = None ->
    WindowsRun H registry s (mkRun None [Windows.lookup_call registry] s)
| WR_register_fails h s1 :
    answer H (Windows.lookup_call registry) s = Some (h, s1) ->
    answer H (Windows.register_call h) s1 = None ->
    WindowsRun H registry s
      (mkRun None [Windows.lookup_call registry; Windows.register_call h] s1)
| WR_returns h s1 v s2 :
    answer H (Windows.lookup_call registry) s = Some (h, s1) ->
    answer H (Windows.register_call h) s1 = Some (v, s2) ->
    WindowsRun H registry s
      (mkRun (Some tt)
             [Windows.lookup_call registry; Windows.register_call h] s2).

(** Two runs are alike up to spelling: same value returned, same host state
    left, and the same calls once the first log is respelled. *)
Definition alike {S A : Type} (r1 r2 : Run S A) : Prop :=
  returned r1 = returned r2
  /\ map respell (issued r1) = issued r2
  /\ final r1 = final r2.

(** A host that hands out a new handle at every call: the handle is 100 plus
    the number of calls served so far. *)
Definition counting_host : Host :=
  mkHost nat (fun _ served => Some (100 + Z.of_nat served, S served)).

(** A host that does not come back from the calls to one function, and
    answers every other call with the given word. *)
Definition refusing (f : string) (word : ptr) : Host :=
  mkHost unit
    (fun c _ => if String.eqb (callee c) f then None else Some (word, tt)).

(** * Properties *)

(** ** Concrete runs against the mocks *)

Example linux_run :
  Linux.fl_register_plugins (H := linux_mock 42) 7 O =
  @mkRun nat unit (Some tt)
        [Linux.lookup_call 7; Linux.register_call 42; Linux.release_call 42]
        3%nat.
Proof. reflexivity. Qed.

Example windows_run :
  Windows.RegisterPlugins (H := windows_mock 42) 7 O =
  @mkRun nat unit (Some tt)
        [Windows.lookup_call 7; Windows.register_call 42] 2%nat.
Proof. reflexivity. Qed.

Example linux_run_dead :
  Linux.fl_register_plugins (H := dead_host) 7 tt =
  @mkRun unit unit None [Linux.lookup_call 7] tt.
Proof. reflexivity. Qed.

Example windows_run_dead :
  Windows.RegisterPlugins (H := dead_host) 7 tt =
  @mkRun unit unit None [Windows.lookup_call 7] tt.
Proof. reflexivity. Qed.

(** ** Laws of the run monad *)

Section Laws.

Context {S : Type}.

Lemma bind_returns {A B : Type} (m : M S A) (k : A -> M S B) (s : S) (a : A) :
  returned (m s) = Some a ->
  bind m k s =
  mkRun (returned (k a (final (m s))))
        (issued (m s) ++ issued (k a (final (m s))))
        (final (k a (final (m s)))).
Proof. intros E. unfold bind. rewrite E. reflexivity. Qed.

Lemma bind_fails {A B : Type} (m : M S A) (k : A -> M S B) (s : S) :
  returned (m s) = None ->
  bind m k s = mkRun None (issued (m s)) (final (m s)).
Proof. intros E. unfold bind. rewrite E. reflexivity. Qed.

Lemma bind_ext {A B : Type} (m : M S A) (k k' : A -> M S B) (s : S) :
  (forall a s', k a s' = k' a s') -> bind m k s = bind m k' s.
Proof.
  intros E. unfold bind. destruct (returned (m s)); [| reflexivity ].
  rewrite E. reflexivity.
Qed.

(** Sequencing a [void] computation with a bare [return] adds nothing. *)
Lemma bind_ret_unit (m : M S unit) (a : unit) (s : S) :
  bind m (fun _ => ret a) s = m s.
Proof.
  unfold bind, ret. destruct (m s) as [[[]|] log s']; destruct a; cbn.
  - rewrite app_nil_r. reflexivity.
  - reflexivity.
Qed.

Lemma bind_alike {A B : Type} (m1 m2 : M S A) (k1 k2 : A -> M S B)
    (s : S) :
  alike (m1 s) (m2 s) ->
  (forall a s', alike (k1 a s') (k2 a s')) ->
  alike (bind m1 k1 s) (bind m2 k2 s).
Proof.
  intros (Er & Ei & Ef) K. unfold bind. rewrite <- Er, <- Ei, <- Ef.
  destruct (returned (m1 s)) as [a|]; cbn.
  - destruct (K a (final (m1 s))) as (Kr & Ki & Kf).
    repeat split; cbn; [ assumption | | assumption ].
    rewrite map_app, Ki. reflexivity.
  - repeat split.
Qed.

Lemma ret_alike {A : Type} (a : A) (s : S) : alike (ret a s) (ret a s).
Proof. repeat split. Qed.

End Laws.

Lemma extern_returns (H : Host) (c : Call) (s s' : hstate H) (v : ptr) :
  answer H c s = Some (v, s') -> extern c s = mkRun (Some v) [c] s'.
Proof. intros E. unfold extern. rewrite E. reflexivity. Qed.

Lemma extern_fails (H : Host) (c : Call) (s : hstate H) :
  answer H c s = None -> extern c s = mkRun None [c] s.
Proof. intros E. unfold extern. rewrite E. reflexivity. Qed.

Lemma extern_void_returns (H : Host) (c : Call) (s s' : hstate H) (v : ptr) :
  answer H c s = Some (v, s') -> extern_void c s = mkRun (Some tt) [c] s'.
Proof.
  intros E. unfold extern_void.
  rewrite (bind_returns _ _ _ v), (extern_returns _ _ _ _ _ E);
    [ reflexivity | rewrite (extern_returns _ _ _ _ _ E); reflexivity ].
Qed.

Lemma extern_void_fails (H : Host) (c : Call) (s : hstate H) :
  answer H c s = None -> extern_void c s = mkRun None [c] s.
Proof.
  intros E. unfold extern_void.
  rewrite bind_fails, (extern_fails _ _ _ E);
    [ reflexivity | rewrite (extern_fails _ _ _ E); reflexivity ].
Qed.

(** A call that returns, followed by the rest of the function. *)
Lemma call_then {H : Host} {A B : Type} (m : M (hstate H) A)
    (k : A -> M (hstate H) B) (s s' : hstate H) (a : A) (c : Call) :
  m s = mkRun (Some a) [c] s' ->
  bind m k s =
  mkRun (returned (k a s')) (c :: issued (k a s')) (final (k a s')).
Proof.
  intros E. rewrite (bind_returns _ _ _ a); rewrite E; reflexivity.
Qed.

(** A call that does not return: the rest of the function is not run. *)
Lemma call_stops {H : Host} {A B : Type} (m : M (hstate H) A)
    (k : A -> M (hstate H) B) (s s' : hstate H) (c : Call) :
  m s = mkRun None [c] s' ->
  bind m k s = mkRun None [c] s'.
Proof.
  intros E. rewrite bind_fails; rewrite E; reflexivity.
Qed.

(** A call to the host seen through the Linux spelling is the respelled
    call to the host itself. *)
Lemma extern_alike (H : Host) (c : Call) (s : hstate H) :
  alike (extern (H := respelled H) c s) (extern (H := H) (respell c) s).
Proof.
  unfold extern. cbn [respelled answer].
  destruct (answer H (respell c) s) as [[v s']|]; repeat split.
Qed.

Lemma extern_void_alike (H : Host) (c : Call) (s : hstate H) :
  alike (extern_void (H := respelled H) c s)
        (extern_void (H := H) (respell c) s).
Proof.
  unfold extern_void. apply bind_alike.
  - apply extern_alike.
  - intros. apply ret_alike.
Qed.

(** ** The runs, case by case

    Each registrant has one run per point at which the host may fail to
    return. *)

Ltac open_linux registry :=
  unfold Linux.fl_register_plugins, Linux.g_autoptr,
    Linux.fl_plugin_registry_get_registrar_for_plugin,
    Linux.url_launcher_plugin_register_with_registrar,
    Linux.glib_autoptr_cleanup_FlPluginRegistrar;
  fold (Linux.lookup_call registry).

Ltac open_windows registry :=
  unfold Windows.RegisterPlugins, Windows.GetRegistrarForPlugin,
    Windows.UrlLauncherWindowsRegisterWithRegistrar;
  fold (Windows.lookup_call registry).

Lemma linux_run_lookup_fails (H : Host) (registry : ptr) (s : hstate H) :
  answer H (Linux.lookup_call registry) s = None ->
  Linux.fl_register_plugins registry s =
  mkRun None [Linux.lookup_call registry] s.
Proof.
  intros E1. open_linux registry.
  apply call_stops, extern_fails, E1.
Qed.

Lemma linux_run_register_fails (H : Host) (registry h : ptr)
    (s s1 : hstate H) :
  answer H (Linux.lookup_call registry) s = Some (h, s1) ->
  answer H (Linux.register_call h) s1 = None ->
  Linux.fl_register_plugins registry s =
  mkRun None [Linux.lookup_call registry; Linux.register_call h] s1.
Proof.
  intros E1 E2. open_linux registry.
  rewrite (call_then _ _ _ _ _ _ (extern_returns _ _ _ _ _ E1)).
  fold (Linux.register_call h).
  rewrite (call_stops _ _ _ _ _ (extern_void_fails _ _ _ E2)).
  reflexivity.
Qed.

Lemma linux_run_release_fails (H : Host) (registry h v : ptr)
    (s s1 s2 : hstate H) :
  answer H (Linux.lookup_call registry) s = Some (h, s1) ->
  answer H (Linux.register_call h) s1 = Some (v, s2) ->
  answer H (Linux.release_call h) s2 = None ->
  Linux.fl_register_plugins registry s =
  mkRun None
    [Linux.lookup_call registry; Linux.register_call h; Linux.release_call h]
    s2.
Proof.
  intros E1 E2 E3. open_linux registry.
  rewrite (call_then _ _ _ _ _ _ (extern_returns _ _ _ _ _ E1)).
  fold (Linux.register_call h).
  rewrite (call_then _ _ _ _ _ _ (extern_void_returns _ _ _ _ _ E2)).
  fold (Linux.release_call h).
  rewrite (call_stops _ _ _ _ _ (extern_void_fails _ _ _ E3)).
  reflexivity.
Qed.

Lemma linux_run_returns (H : Host) (registry h v v' : ptr)
    (s s1 s2 s3 : hstate H) :
  answer H (Linux.lookup_call registry) s = Some (h, s1) ->
  answer H (Linux.register_call h) s1 = Some (v, s2) ->
  answer H (Linux.release_call h) s2 = Some (v', s3) ->
  Linux.fl_register_plugins registry s =
  mkRun (Some tt)
    [Linux.lookup_call registry; Linux.register_call h; Linux.release_call h]
    s3.
Proof.
  intros E1 E2 E3. open_linux registry.
  rewrite (call_then _ _ _ _ _ _ (extern_returns _ _ _ _ _ E1)).
  fold (Linux.register_call h).
  rewrite (call_then _ _ _ _ _ _ (extern_void_returns _ _ _ _ _ E2)).
  fold (Linux.release_call h).
  rewrite (call_then _ _ _ _ _ _ (extern_void_returns _ _ _ _ _ E3)).
  reflexivity.
Qed.

Lemma windows_run_lookup_fails (H : Host) (registry : ptr) (s : hstate H) :
  answer H (Windows.lookup_call registry) s = None ->
  Windows.RegisterPlugins registry s =
  mkRun None [Windows.lookup_call registry] s.
Proof.
  intros E1. open_windows registry.
  apply call_stops, extern_fails, E1.
Qed.

Lemma windows_run_register_fails (H : Host) (registry h : ptr)
    (s s1 : hstate H) :
  answer H (Windows.lookup_call registry) s = Some (h, s1) ->
  answer H (Windows.register_call h) s1 = None ->
  Windows.RegisterPlugins registry s =
  mkRun None [Windows.lookup_call registry; Windows.register_call h] s1.
Proof.
  intros E1 E2. open_windows registry.
  rewrite (call_then _ _ _ _ _ _ (extern_returns _ _ _ _ _ E1)).
  fold (Windows.register_call h).
  rewrite (extern_void_fails _ _ _ E2). reflexivity.
Qed.

Lemma windows_run_returns (H : Host) (registry h v : ptr)
    (s s1 s2 : hstate H) :
  answer H (Windows.lookup_call registry) s = Some (h, s1) ->
  answer H (Windows.register_call h) s1 = Some (v, s2) ->
  Windows.RegisterPlugins registry s =
  mkRun (Some tt) [Windows.lookup_call registry; Windows.register_call h] s2.
Proof.
  intros E1 E2. open_windows registry.
  rewrite (call_then _ _ _ _ _ _ (extern_returns _ _ _ _ _ E1)).
  fold (Windows.register_call h).
  rewrite (extern_void_returns _ _ _ _ _ E2). reflexivity.
Qed.

Lemma linux_run_view (H : Host) (registry : ptr) (s : hstate H) :
  LinuxRun H registry s (Linux.fl_register_plugins registry s).
Proof.
  destruct (answer H (Linux.lookup_call registry) s) as [[h s1]|] eqn:E1.
  - destruct (answer H (Linux.register_call h) s1) as [[v s2]|] eqn:E2.
    + destruct (answer H (Linux.release_call h) s2) as [[v' s3]|] eqn:E3.
      * rewrite (linux_run_returns _ _ _ _ _ _ _ _ _ E1 E2 E3).
        eapply LR_returns; eassumption.
      * rewrite (linux_run_release_fails _ _ _ _ _ _ _ E1 E2 E3).
        eapply LR_release_fails; eassumption.
    + rewrite (linux_run_register_fails _ _ _ _ _ E1 E2).
      eapply LR_register_fails; eassumption.
  - rewrite (linux_run_lookup_fails _ _ _ E1). now constructor.
Qed.

Lemma windows_run_view (H : Host) (registry : ptr) (s : hstate H) :
  WindowsRun H registry s (Windows.RegisterPlugins registry s).
Proof.
  destruct (answer H (Windows.lookup_call registry) s) as [[h s1]|] eqn:E1.
  - destruct (answer H (Windows.register_call h) s1) as [[v s2]|] eqn:E2.
    + rewrite (windows_run_returns _ _ _ _ _ _ _ E1 E2).
      eapply WR_returns; eassumption.
    + rewrite (windows_run_register_fails _ _ _ _ _ E1 E2).
      eapply WR_register_fails; eassumption.
  - rewrite (windows_run_lookup_fails _ _ _ E1). now constructor.
Qed.

(** Case analysis on a run, with the host's answers identified. *)
Ltac same_answers :=
  repeat match goal with
  | [ E1 : ?x = Some _, E2 : ?x = Some _ |- _ ] =>
      rewrite E1 in E2; injection E2 as <- <-
  | [ E1 : ?x = Some _, E2 : ?x = None |- _ ] =>
      rewrite E1 in E2; discriminate E2
  end.

Ltac linux_cases H registry s :=
  destruct (linux_run_view H registry s); cbn [returned issued final] in *;
  same_answers.

Ltac windows_cases H registry s :=
  destruct (windows_run_view H registry s); cbn [returned issued final] in *;
  same_answers.

(** ** The registration scenarios *)

(** C1. Linux: whatever the host and the registry handle, a call of
    [fl_register_plugins] issues exactly one registrar lookup, on that
    registry and with the literal name "UrlLauncherPlugin"; and when that
    lookup returns the handle [h], it issues exactly one call of
    [url_launcher_plugin_register_with_registrar], with argument [h]. *)
Theorem fl_register_plugins_one_lookup_one_register
    (H : Host) (registry : ptr) (s : hstate H) :
  calls_to "fl_plugin_registry_get_registrar_for_plugin"
           (issued (Linux.fl_register_plugins registry s)) =
    [mkCall "fl_plugin_registry_get_registrar_for_plugin"
            [APtr registry; AStr "UrlLauncherPlugin"]]
  /\ forall (h : ptr) (s1 : hstate H),
       answer H (mkCall "fl_plugin_registry_get_registrar_for_plugin"
                        [APtr registry; AStr "UrlLauncherPlugin"]) s
         = Some (h, s1) ->
       calls_to "url_launcher_plugin_register_with_registrar"
                (issued (Linux.fl_register_plugins registry s)) =
         [mkCall "url_launcher_plugin_register_with_registrar" [APtr h]].
Proof.
  fold (Linux.lookup_call registry).
  split; [| intros h0 s0 E0 ]; linux_cases H registry s; reflexivity.
Qed.

Lemma fl_register_plugins_one_lookup_one_register_witness :
  calls_to "url_launcher_plugin_register_with_registrar"
           (issued (Linux.fl_register_plugins (H := linux_mock 42) 7 O)) =
    [mkCall "url_launcher_plugin_register_with_registrar" [APtr 42]].
Proof.
  apply (proj2 (fl_register_plugins_one_lookup_one_register
                  (linux_mock 42) 7 O) 42 1%nat).
  reflexivity.
Defined.

(** C2. Windows: whatever the host and the registry handle, a call of
    [RegisterPlugins] issues exactly one registrar lookup, on that registry
    and with the literal name "UrlLauncherWindows"; and when that lookup
    returns the handle [h], it issues exactly one call of
    [UrlLauncherWindowsRegisterWithRegistrar], with argument [h]. *)
Theorem RegisterPlugins_one_lookup_one_register
    (H : Host) (registry : ptr) (s : hstate H) :
  calls_to "flutter::PluginRegistry::GetRegistrarForPlugin"
           (issued (Windows.RegisterPlugins registry s)) =
    [mkCall "flutter::PluginRegistry::GetRegistrarForPlugin"
            [APtr registry; AStr "UrlLauncherWindows"]]
  /\ forall (h : ptr) (s1 : hstate H),
       answer H (mkCall "flutter::PluginRegistry::GetRegistrarForPlugin"
                        [APtr registry; AStr "UrlLauncherWindows"]) s
         = Some (h, s1) ->
       calls_to "UrlLauncherWindowsRegisterWithRegistrar"
                (issued (Windows.RegisterPlugins registry s)) =
         [mkCall "UrlLauncherWindowsRegisterWithRegistrar" [APtr h]].
Proof.
  fold (Windows.lookup_call registry).
  split; [| intros h0 s0 E0 ]; windows_cases H registry s; reflexivity.
Qed.

Lemma RegisterPlugins_one_lookup_one_register_witness :
  calls_to "UrlLauncherWindowsRegisterWithRegistrar"
           (issued (Windows.RegisterPlugins (H := windows_mock 42) 7 O)) =
    [mkCall "UrlLauncherWindowsRegisterWithRegistrar" [APtr 42]].
Proof.
  apply (proj2 (RegisterPlugins_one_lookup_one_register
                  (windows_mock 42) 7 O) 42 1%nat).
  reflexivity.
Defined.

(** ** Frame *)

(** C3. On both platforms the handle the lookup returned reaches exactly one
    downstream call, the URL-launcher plugin's registration function, as the
    lookup returned it; apart from the lookup itself (and, on Linux, the
    release of the scoped reference) no other function is called, so no
    other plugin's registration function is. *)
Theorem registrar_reaches_one_registration_only
    (H : Host) (registry : ptr) (s : hstate H) :
  (forall (h : ptr) (s1 : hstate H),
     answer H (Linux.lookup_call registry) s = Some (h, s1) ->
     downstream ["fl_plugin_registry_get_registrar_for_plugin";
                 "glib_autoptr_cleanup_FlPluginRegistrar"]
                (issued (Linux.fl_register_plugins registry s)) =
       [mkCall "url_launcher_plugin_register_with_registrar" [APtr h]])
  /\
  (forall (h : ptr) (s1 : hstate H),
     answer H (Windows.lookup_call registry) s = Some (h, s1) ->
     downstream ["flutter::PluginRegistry::GetRegistrarForPlugin"]
                (issued (Windows.RegisterPlugins registry s)) =
       [mkCall "UrlLauncherWindowsRegisterWithRegistrar" [APtr h]])
  /\
  (answer H (Linux.lookup_call registry) s = None ->
     downstream ["fl_plugin_registry_get_registrar_for_plugin";
                 "glib_autoptr_cleanup_FlPluginRegistrar"]
                (issued (Linux.fl_register_plugins registry s)) = [])
  /\
  (answer H (Windows.lookup_call registry) s = None ->
     downstream ["flutter::PluginRegistry::GetRegistrarForPlugin"]
                (issued (Windows.RegisterPlugins registry s)) = []).
Proof.
  repeat split.
  - intros h0 s0 E0. linux_cases H registry s; reflexivity.
  - intros h0 s0 E0. windows_cases H registry s; reflexivity.
  - intros E0. linux_cases H registry s; reflexivity.
  - intros E0. windows_cases H registry s; reflexivity.
Qed.

Lemma registrar_reaches_one_registration_only_witness :
  downstream ["fl_plugin_registry_get_registrar_for_plugin";
              "glib_autoptr_cleanup_FlPluginRegistrar"]
             (issued (Linux.fl_register_plugins (H := linux_mock 42) 7 O)) =
    [mkCall "url_launcher_plugin_register_with_registrar" [APtr 42]]
  /\
  downstream ["flutter::PluginRegistry::GetRegistrarForPlugin"]
             (issued (Windows.RegisterPlugins (H := windows_mock 42) 7 O)) =
    [mkCall "UrlLauncherWindowsRegisterWithRegistrar" [APtr 42]]
  /\
  downstream ["fl_plugin_registry_get_registrar_for_plugin";
              "glib_autoptr_cleanup_FlPluginRegistrar"]
             (issued (Linux.fl_register_plugins (H := dead_host) 7 tt)) = []
  /\
  downstream ["flutter::PluginRegistry::GetRegistrarForPlugin"]
             (issued (Windows.RegisterPlugins (H := dead_host) 7 tt)) = [].
Proof.
  split; [| split; [| split ] ].
  - apply (proj1 (registrar_reaches_one_registration_only
                    (linux_mock 42) 7 O) 42 1%nat).
    reflexivity.
  - apply (proj1 (proj2 (registrar_reaches_one_registration_only
                           (windows_mock 42) 7 O)) 42 1%nat).
    reflexivity.
  - apply (proj1 (proj2 (proj2 (registrar_reaches_one_registration_only
                                  dead_host 7 tt)))).
    reflexivity.
  - apply (proj2 (proj2 (proj2 (registrar_reaches_one_registration_only
                                  dead_host 7 tt)))).
    reflexivity.
Defined.


(** ** One responsibility, two platforms *)

Lemma linux_refines_spec (H : Host) (registry : ptr) (s : hstate H) :
  Linux.fl_register_plugins registry s =
  spec_registrant (linux_api H) "UrlLauncherPlugin" (idiom_of H true)
                  registry s.
Proof.
  unfold Linux.fl_register_plugins, Linux.g_autoptr, spec_registrant,
    linux_api, idiom_of, get_registrar, register_with_registrar.
  apply bind_ext; intros var s1.
  apply bind_ext; intros [] s2.
  apply bind_ret_unit.
Qed.

Lemma windows_refines_spec (H : Host) (registry : ptr) (s : hstate H) :
  Windows.RegisterPlugins registry s =
  spec_registrant (windows_api H) "UrlLauncherWindows" (idiom_of H false)
                  registry s.
Proof.
  unfold Windows.RegisterPlugins, spec_registrant, windows_api, idiom_of,
    get_registrar, register_with_registrar.
  apply bind_ext; intros registrar s1.
  symmetry. apply bind_ret_unit.
Qed.

(** At equal identifier and idiom, the operation over the Linux calls runs
    like the operation over the Windows calls. *)
Lemma spec_registrant_alike (H : Host) (name : string) (scoped : bool)
    (registry : ptr) (s : hstate H) :
  alike (spec_registrant (linux_api (respelled H)) name
                         (idiom_of (respelled H) scoped) registry s)
        (spec_registrant (windows_api H) name (idiom_of H scoped)
                         registry s).
Proof.
  unfold spec_registrant, linux_api, windows_api, get_registrar,
    register_with_registrar.
  apply bind_alike.
  - apply (extern_alike H).
  - intros registrar s1. apply bind_alike.
    + apply (extern_void_alike H).
    + intros _ s2. destruct scoped; cbn [idiom_of].
      * apply (extern_void_alike H).
      * apply ret_alike.
Qed.


(** ** The scoped registrar on Linux *)

(** C5. On Linux the registrar is acquired inside [fl_register_plugins] and
    released there: a call that returns has looked the registrar up, handed
    it to the plugin and then released it, the release being its last act;
    once the registrar is acquired and the plugin's registration has
    returned, the release is issued; and no run releases more than once.
    The function returns [unit], so the handle does not leave with it. *)
Theorem registrar_released_when_call_returns
    (H : Host) (registry : ptr) (s : hstate H) :
  (returned (Linux.fl_register_plugins registry s) = Some tt ->
   exists (h : ptr) (s1 : hstate H),
     answer H (Linux.lookup_call registry) s = Some (h, s1)
     /\ issued (Linux.fl_register_plugins registry s) =
          [Linux.lookup_call registry; Linux.register_call h;
           Linux.release_call h])
  /\
  (forall (h v : ptr) (s1 s2 : hstate H),
     answer H (Linux.lookup_call registry) s = Some (h, s1) ->
     answer H (Linux.register_call h) s1 = Some (v, s2) ->
     issued (Linux.fl_register_plugins registry s) =
       [Linux.lookup_call registry; Linux.register_call h;
        Linux.release_call h])
  /\
  (List.length (calls_to "glib_autoptr_cleanup_FlPluginRegistrar"
                    (issued (Linux.fl_register_plugins registry s))) <= 1)%nat.
Proof.
  split; [| split ].
  - intros R. linux_cases H registry s; try discriminate R.
    exists h, s1. split; [ assumption | reflexivity ].
  - intros h0 v0 s0 s0' E1 E2. linux_cases H registry s; reflexivity.
  - linux_cases H registry s; cbn; lia.
Qed.

Lemma registrar_released_when_call_returns_witness :
  (exists (h : ptr) (s1 : nat),
     answer (linux_mock 42) (Linux.lookup_call 7) O = Some (h, s1)
     /\ issued (Linux.fl_register_plugins (H := linux_mock 42) 7 O) =
          [Linux.lookup_call 7; Linux.register_call h;
           Linux.release_call h])
  /\
  issued (Linux.fl_register_plugins (H := linux_mock 42) 7 O) =
    [Linux.lookup_call 7; Linux.register_call 42; Linux.release_call 42].
Proof.
  split.
  - apply (proj1 (registrar_released_when_call_returns (linux_mock 42) 7 O)).
    reflexivity.
  - apply (proj1 (proj2 (registrar_released_when_call_returns
                           (linux_mock 42) 7 O)) 42 0 1%nat 2%nat);
      reflexivity.
Defined.

(** ** The Windows registrant on any pointer *)

Lemma cxx_run_null (H : Host) (s : hstate H) :
  Cxx.RegisterPlugins NULL s = mkRun None [] s.
Proof.
  unfold Cxx.RegisterPlugins, Cxx.arrow.
  change (Z.eqb NULL NULL) with true. cbv iota.
  rewrite bind_fails; reflexivity.
Qed.

Lemma cxx_run_not_null (H : Host) (registry : ptr) (s : hstate H) :
  registry <> NULL ->
  Cxx.RegisterPlugins registry s = Windows.RegisterPlugins registry s.
Proof.
  intros N. apply Z.eqb_neq in N.
  unfold Cxx.RegisterPlugins, Cxx.arrow, Windows.RegisterPlugins.
  rewrite N. reflexivity.
Qed.

Lemma mock_responsive (lookup name : string) (registrar : ptr) :
  responsive (mock lookup name registrar).
Proof.
  intros c served. cbn [mock answer]. unfold mock_answer.
  destruct (args c) as [|[p|n] [|[q|m] [|b l]]]; eauto.
  destruct (_ && _); eauto.
Qed.

(** ** Determinism *)




(** ** No error handling *)

(** C7. Neither registrant handles errors: its run is the same straight
    line whatever the host answers.  On Linux, when the three calls return,
    the registrant has looked the registrar up on the registry it was given,
    registered what the lookup returned and released it, and returns; this
    for every registry, a null one included, for every registrar, a null
    one included, and for every word the calls bring back.  On Windows
    likewise for the two calls and every registry that is not null; a null
    registry is dereferenced untested and the process faults there.  A call
    that does not return is not caught: the registrant brings nothing back
    and calls nothing else (on Linux, nothing but the release of the
    registrar in hand). *)
Theorem registrants_handle_no_error
    (H : Host) (registry : ptr) (s : hstate H) :
  (forall (h v v' : ptr) (s1 s2 s3 : hstate H),
     answer H (Linux.lookup_call registry) s = Some (h, s1) ->
     answer H (Linux.register_call h) s1 = Some (v, s2) ->
     answer H (Linux.release_call h) s2 = Some (v', s3) ->
     Linux.fl_register_plugins registry s =
       mkRun (Some tt)
             [Linux.lookup_call registry; Linux.register_call h;
              Linux.release_call h] s3)
  /\
  (answer H (Linux.lookup_call registry) s = None ->
   Linux.fl_register_plugins registry s =
     mkRun None [Linux.lookup_call registry] s)
  /\
  (forall (h : ptr) (s1 : hstate H),
     answer H (Linux.lookup_call registry) s = Some (h, s1) ->
     answer H (Linux.register_call h) s1 = None ->
     returned (Linux.fl_register_plugins registry s) = None
     /\ firstn 2 (issued (Linux.fl_register_plugins registry s)) =
          [Linux.lookup_call registry; Linux.register_call h]
     /\ downstream ["fl_plugin_registry_get_registrar_for_plugin";
                    "glib_autoptr_cleanup_FlPluginRegistrar"]
                   (issued (Linux.fl_register_plugins registry s)) =
          [Linux.register_call h])
  /\
  (forall (h v : ptr) (s1 s2 : hstate H),
     answer H (Linux.lookup_call registry) s = Some (h, s1) ->
     answer H (Linux.register_call h) s1 = Some (v, s2) ->
     answer H (Linux.release_call h) s2 = None ->
     Linux.fl_register_plugins registry s =
       mkRun None
             [Linux.lookup_call registry; Linux.register_call h;
              Linux.release_call h] s2)
  /\
  Cxx.RegisterPlugins NULL s = mkRun None [] s
  /\
  (forall (h v : ptr) (s1 s2 : hstate H),
     registry <> NULL ->
     answer H (Windows.lookup_call registry) s = Some (h, s1) ->
     answer H (Windows.register_call h) s1 = Some (v, s2) ->
     Cxx.RegisterPlugins registry s =
       mkRun (Some tt)
             [Windows.lookup_call registry; Windows.register_call h] s2)
  /\
  (registry <> NULL ->
   answer H (Windows.lookup_call registry) s = None ->
   Cxx.RegisterPlugins registry s =
     mkRun None [Windows.lookup_call registry] s)
  /\
  (forall (h : ptr) (s1 : hstate H),
     registry <> NULL ->
     answer H (Windows.lookup_call registry) s = Some (h, s1) ->
     answer H (Windows.register_call h) s1 = None ->
     Cxx.RegisterPlugins registry s =
       mkRun None [Windows.lookup_call registry; Windows.register_call h] s1).
Proof.
  split; [| split; [| split; [| split; [| split; [| split; [| split ] ] ] ] ] ].
  - intros h v v' s1 s2 s3 E1 E2 E3.
    exact (linux_run_returns H registry h v v' s s1 s2 s3 E1 E2 E3).
  - intros E1. exact (linux_run_lookup_fails H registry s E1).
  - intros h s1 E1 E2.
    rewrite (linux_run_register_fails H registry h s s1 E1 E2).
    split; [| split ]; reflexivity.
  - intros h v s1 s2 E1 E2 E3.
    exact (linux_run_release_fails H registry h v s s1 s2 E1 E2 E3).
  - apply cxx_run_null.
  - intros h v s1 s2 N E1 E2. rewrite (cxx_run_not_null _ _ _ N).
    exact (windows_run_returns H registry h v s s1 s2 E1 E2).
  - intros N E1. rewrite (cxx_run_not_null _ _ _ N).
    exact (windows_run_lookup_fails H registry s E1).
  - intros h s1 N E1 E2. rewrite (cxx_run_not_null _ _ _ N).
    exact (windows_run_register_fails H registry h s s1 E1 E2).
Qed.

(** The registries of the witness: one that does not know the plugin and
    answers its lookup with [NULL], asked through a null registry handle;
    hosts that refuse one call each. *)
Lemma registrants_handle_no_error_witness :
  Linux.fl_register_plugins (H := mock "" "" 42) NULL O =
    mkRun (Some tt)
          [Linux.lookup_call NULL; Linux.register_call NULL;
           Linux.release_call NULL] 3%nat
  /\
  Linux.fl_register_plugins (H := dead_host) 7 tt =
    mkRun None [Linux.lookup_call 7] tt
  /\
  returned (Linux.fl_register_plugins
              (H := refusing "url_launcher_plugin_register_with_registrar" 42)
              7 tt) = None
  /\
  Linux.fl_register_plugins
    (H := refusing "glib_autoptr_cleanup_FlPluginRegistrar" 42) 7 tt =
    mkRun None
          [Linux.lookup_call 7; Linux.register_call 42; Linux.release_call 42]
          tt
  /\
  Cxx.RegisterPlugins (H := mock "" "" 42) 7 O =
    mkRun (Some tt) [Windows.lookup_call 7; Windows.register_call NULL] 2%nat
  /\
  Cxx.RegisterPlugins (H := dead_host) 7 tt =
    mkRun None [Windows.lookup_call 7] tt
  /\
  Cxx.RegisterPlugins
    (H := refusing "UrlLauncherWindowsRegisterWithRegistrar" 42) 7 tt =
    mkRun None [Windows.lookup_call 7; Windows.register_call 42] tt.
Proof.
  pose proof (registrants_handle_no_error (mock "" "" 42) NULL O)
    as (L & _).
  pose proof (registrants_handle_no_error (mock "" "" 42) 7 O)
    as (_ & _ & _ & _ & _ & W & _).
  pose proof (registrants_handle_no_error dead_host 7 tt)
    as (_ & LL & _ & _ & _ & _ & WL & _).
  pose proof (registrants_handle_no_error
                (refusing "url_launcher_plugin_register_with_registrar" 42)
                7 tt)
    as (_ & _ & LR & _).
  pose proof (registrants_handle_no_error
                (refusing "glib_autoptr_cleanup_FlPluginRegistrar" 42) 7 tt)
    as (_ & _ & _ & LC & _).
  pose proof (registrants_handle_no_error
                (refusing "UrlLauncherWindowsRegisterWithRegistrar" 42) 7 tt)
    as (_ & _ & _ & _ & _ & _ & _ & WR).
  split; [| split; [| split; [| split; [| split; [| split ] ] ] ] ].
  - apply (L NULL NULL NULL 1%nat 2%nat 3%nat); reflexivity.
  - apply LL. reflexivity.
  - apply (LR 42 tt); reflexivity.
  - apply (LC 42 42 tt tt); reflexivity.
  - apply (W NULL NULL 1%nat 2%nat); [ discriminate | reflexivity .. ].
  - apply WL; [ discriminate | reflexivity ].
  - apply (WR 42 tt); [ discriminate | reflexivity .. ].
Defined.

(** ** Termination *)




(** ** No value returned *)



(** ** The unchecked registrar *)

(** C10. On Linux whatever the lookup returns is what the registration
    receives, in the call that follows the lookup and with no test in
    between; a [NULL] registrar is passed on like any other. *)
Theorem fl_register_plugins_forwards_unchecked
    (H : Host) (registry : ptr) (s : hstate H) :
  (forall (h : ptr) (s1 : hstate H),
     answer H (mkCall "fl_plugin_registry_get_registrar_for_plugin"
                      [APtr registry; AStr "UrlLauncherPlugin"]) s
       = Some (h, s1) ->
     firstn 2 (issued (Linux.fl_register_plugins registry s)) =
       [mkCall "fl_plugin_registry_get_registrar_for_plugin"
               [APtr registry; AStr "UrlLauncherPlugin"];
        mkCall "url_launcher_plugin_register_with_registrar" [APtr h]])
  /\
  (forall s1 : hstate H,
     answer H (mkCall "fl_plugin_registry_get_registrar_for_plugin"
                      [APtr registry; AStr "UrlLauncherPlugin"]) s
       = Some (NULL, s1) ->
     In (mkCall "url_launcher_plugin_register_with_registrar" [APtr NULL])
        (issued (Linux.fl_register_plugins registry s))).
Proof.
  fold (Linux.lookup_call registry).
  split.
  - intros h0 s0 E0. linux_cases H registry s; reflexivity.
  - intros s0 E0. linux_cases H registry s; right; left; reflexivity.
Qed.

(** The registry of the witness knows no plugin "UrlLauncherPlugin". *)
Lemma fl_register_plugins_forwards_unchecked_witness :
  firstn 2 (issued (Linux.fl_register_plugins
                      (H := windows_mock 42) 7 O)) =
    [Linux.lookup_call 7; Linux.register_call NULL]
  /\
  In (Linux.register_call NULL)
     (issued (Linux.fl_register_plugins (H := windows_mock 42) 7 O)).
Proof.
  split.
  - apply (proj1 (fl_register_plugins_forwards_unchecked
                    (windows_mock 42) 7 O) NULL 1%nat).
    reflexivity.
  - apply (proj2 (fl_register_plugins_forwards_unchecked
                    (windows_mock 42) 7 O) 1%nat).
    reflexivity.
Defined.

(** * Further properties of the two registrants *)

(** ** Invoked twice *)

Lemma calls_to_app (f : string) (l m : list Call) :
  calls_to f (l ++ m) = (calls_to f l ++ calls_to f m)%list.
Proof. apply filter_app. Qed.

Lemma linux_lookups (H : Host) (registry : ptr) (s : hstate H) :
  calls_to "fl_plugin_registry_get_registrar_for_plugin"
           (issued (Linux.fl_register_plugins registry s)) =
  [Linux.lookup_call registry].
Proof. linux_cases H registry s; reflexivity. Qed.

Lemma linux_registrations (H : Host) (registry h : ptr) (s s1 : hstate H) :
  answer H (Linux.lookup_call registry) s = Some (h, s1) ->
  calls_to "url_launcher_plugin_register_with_registrar"
           (issued (Linux.fl_register_plugins registry s)) =
  [Linux.register_call h].
Proof. intros E. linux_cases H registry s; reflexivity. Qed.

Lemma windows_lookups (H : Host) (registry : ptr) (s : hstate H) :
  calls_to "flutter::PluginRegistry::GetRegistrarForPlugin"
           (issued (Windows.RegisterPlugins registry s)) =
  [Windows.lookup_call registry].
Proof. windows_cases H registry s; reflexivity. Qed.

Lemma windows_registrations (H : Host) (registry h : ptr) (s s1 : hstate H) :
  answer H (Windows.lookup_call registry) s = Some (h, s1) ->
  calls_to "UrlLauncherWindowsRegisterWithRegistrar"
           (issued (Windows.RegisterPlugins registry s)) =
  [Windows.register_call h].
Proof. intros E. windows_cases H registry s; reflexivity. Qed.

(** [fl_register_plugins] keeps nothing from one call to the next.  Called
    again after a call that returned, it looks the registrar up again, in
    the state the first call left the host in, and registers what this
    second lookup returns, be it the first registrar or another: two
    lookups and two registrations in all. *)
Theorem fl_register_plugins_twice_looks_up_again
    (H : Host) (r1 r2 h1 h2 : ptr) (s s1 s2 : hstate H) :
  returned (Linux.fl_register_plugins r1 s) = Some tt ->
  answer H (Linux.lookup_call r1) s = Some (h1, s1) ->
  answer H (Linux.lookup_call r2)
         (final (Linux.fl_register_plugins r1 s)) = Some (h2, s2) ->
  calls_to "fl_plugin_registry_get_registrar_for_plugin"
           (issued ((Linux.fl_register_plugins r1 ;;
                     Linux.fl_register_plugins r2) s)) =
    [Linux.lookup_call r1; Linux.lookup_call r2]
  /\
  calls_to "url_launcher_plugin_register_with_registrar"
           (issued ((Linux.fl_register_plugins r1 ;;
                     Linux.fl_register_plugins r2) s)) =
    [Linux.register_call h1; Linux.register_call h2].
Proof.
  intros R E1 E2. rewrite (bind_returns _ _ _ tt R). cbn [issued].
  rewrite !calls_to_app, !linux_lookups.
  rewrite (linux_registrations _ _ _ _ _ E1), (linux_registrations _ _ _ _ _ E2).
  split; reflexivity.
Qed.

(** On the counting host the second lookup returns another registrar. *)
Lemma fl_register_plugins_twice_looks_up_again_witness :
  calls_to "fl_plugin_registry_get_registrar_for_plugin"
           (issued ((Linux.fl_register_plugins 7 ;;
                     Linux.fl_register_plugins 7)
                      (O : hstate counting_host))) =
    [Linux.lookup_call 7; Linux.lookup_call 7]
  /\
  calls_to "url_launcher_plugin_register_with_registrar"
           (issued ((Linux.fl_register_plugins 7 ;;
                     Linux.fl_register_plugins 7)
                      (O : hstate counting_host))) =
    [Linux.register_call 100; Linux.register_call 103].
Proof.
  apply (fl_register_plugins_twice_looks_up_again
           counting_host 7 7 100 103 O 1%nat 4%nat); reflexivity.
Defined.

(** [RegisterPlugins] keeps nothing from one call to the next either: a
    second call looks the registrar up again and registers what the second
    lookup returns. *)
Theorem RegisterPlugins_twice_looks_up_again
    (H : Host) (r1 r2 h1 h2 : ptr) (s s1 s2 : hstate H) :
  returned (Windows.RegisterPlugins r1 s) = Some tt ->
  answer H (Windows.lookup_call r1) s = Some (h1, s1) ->
  answer H (Windows.lookup_call r2)
         (final (Windows.RegisterPlugins r1 s)) = Some (h2, s2) ->
  calls_to "flutter::PluginRegistry::GetRegistrarForPlugin"
           (issued ((Windows.RegisterPlugins r1 ;;
                     Windows.RegisterPlugins r2) s)) =
    [Windows.lookup_call r1; Windows.lookup_call r2]
  /\
  calls_to "UrlLauncherWindowsRegisterWithRegistrar"
           (issued ((Windows.RegisterPlugins r1 ;;
                     Windows.RegisterPlugins r2) s)) =
    [Windows.register_call h1; Windows.register_call h2].
Proof.
  intros R E1 E2. rewrite (bind_returns _ _ _ tt R). cbn [issued].
  rewrite !calls_to_app, !windows_lookups.
  rewrite (windows_registrations _ _ _ _ _ E1),
          (windows_registrations _ _ _ _ _ E2).
  split; reflexivity.
Qed.

Lemma RegisterPlugins_twice_looks_up_again_witness :
  calls_to "flutter::PluginRegistry::GetRegistrarForPlugin"
           (issued ((Windows.RegisterPlugins 7 ;;
                     Windows.RegisterPlugins 7)
                      (O : hstate counting_host))) =
    [Windows.lookup_call 7; Windows.lookup_call 7]
  /\
  calls_to "UrlLauncherWindowsRegisterWithRegistrar"
           (issued ((Windows.RegisterPlugins 7 ;;
                     Windows.RegisterPlugins 7)
                      (O : hstate counting_host))) =
    [Windows.register_call 100; Windows.register_call 102].
Proof.
  apply (RegisterPlugins_twice_looks_up_again
           counting_host 7 7 100 102 O 1%nat 3%nat); reflexivity.
Defined.
